(** * gsheets2dataframe: the [GsToDfConverter] bridge between a Google
    Sheets document and a table of strings.

    The development follows [gsheets2dataframe.py]:
    - [ColumnLetters]: the pure conversion [get_col_number];
    - [Gspread], [Pandas]: the two collaborators the class calls into,
      at the level of the calls the class makes;
    - [Converter]: the methods of [GsToDfConverter], written in a small
      state-and-exception monad over the remote document. *)

From Stdlib Require Import ZArith Lia String Ascii List.
From stdpp Require Import base option list gmap strings.

Local Open Scope Z_scope.

(** ** Column letters *)

Module ColumnLetters.

(** Python's [ord] on a one-character string. Characters are the 8-bit
    characters of [string]; code points above 255 are outside the model. *)
Definition ord (c : ascii) : Z := Z.of_N (N_of_ascii c).

(** One iteration of the loop body of [get_col_number]:
    [result = result * 26 + (ord(char) - ord("A") + 1)]. *)
Definition step (result : Z) (char : ascii) : Z :=
  result * 26 + (ord char - ord "A" + 1).

(** [get_col_number]: [result = 0], then the loop over the characters of
    [col_letter] from left to right, then [return result]. *)
Definition get_col_number (col_letter : string) : Z :=
  fold_left step (list_ascii_of_string col_letter) 0.

(** *** The spreadsheet convention, stated independently of the loop *)

(** The letters [A]..[Z]. *)
Definition is_upper (c : ascii) : bool :=
  (ord "A" <=? ord c) && (ord c <=? ord "Z").

(** A column label: a non-empty string of letters [A]..[Z]. *)
Definition valid_col_letter (s : string) : bool :=
  match list_ascii_of_string s with
  | [] => false
  | l => forallb is_upper l
  end.

(** A malformed label: empty, or with a character that is not a letter
    (of either case). *)
Definition is_alpha (c : ascii) : bool :=
  is_upper c || ((ord "a" <=? ord c) && (ord c <=? ord "z")).

Definition malformed (s : string) : bool :=
  match list_ascii_of_string s with
  | [] => true
  | l => negb (forallb is_alpha l)
  end.

(** [letterValue(A) = 1 .. letterValue(Z) = 26]. *)
Definition letter_value (c : ascii) : Z := ord c - 64.

(** Bijective base-26 numbering, positionally: the digit at distance [k]
    from the right end weighs [26^k], and digits range over [1..26]. *)
Fixpoint bijective_base26 (l : list ascii) : Z :=
  match l with
  | [] => 0
  | c :: r => letter_value c * 26 ^ Z.of_nat (length r) + bijective_base26 r
  end.

Definition column_index (s : string) : Z :=
  bijective_base26 (list_ascii_of_string s).

(** Spreadsheet column order: shorter labels first, lexicographic among
    labels of one length. *)
Fixpoint lex_lt (s t : list ascii) : bool :=
  match s, t with
  | [], [] => false
  | [], _ :: _ => true
  | _ :: _, [] => false
  | c :: s', d :: t' =>
      (ord c <? ord d) || ((ord c =? ord d) && lex_lt s' t')
  end.

Definition column_order_lt (s t : string) : bool :=
  let ls := list_ascii_of_string s in
  let lt := list_ascii_of_string t in
  (length ls <? length lt)%nat
  || ((length ls =? length lt)%nat && lex_lt ls lt).

End ColumnLetters.

(** ** Python outcomes over the remote document *)

Module Py.

(** The exception classes that occur: gspread's [SpreadsheetNotFound],
    [WorksheetNotFound], [APIError] and [IncorrectCellLabel] (siblings
    below [GSpreadException]), and the built-in [IndexError] and
    [ValueError]. *)
Inductive exn : Type :=
  | SpreadsheetNotFound
  | WorksheetNotFound
  | APIError
  | IncorrectCellLabel
  | IndexError
  | ValueError.

#[global] Instance exn_eq_dec : EqDecision exn.
Proof. solve_decision. Defined.

(** A call either returns a value or raises. *)
Inductive outcome (A : Type) : Type :=
  | Ret (a : A)
  | Raise (e : exn).
Arguments Ret {A} a.
Arguments Raise {A} e.

(** The state of one tab of the remote document: its grid size and the
    rows of cell values it holds. *)
Record tab : Type := mkTab {
  row_count : nat;
  col_count : nat;
  cells : list (list string)
}.

(** What a call can observe and change: the tabs of the document opened
    by [__init__] (keyed by title) and what has been printed. *)
Record world : Type := mkWorld {
  sheets : gmap string tab;
  stdout : list string
}.

Definition M (A : Type) : Type := world -> outcome A * world.

Definition ret {A} (a : A) : M A := fun w => (Ret a, w).

Definition raise {A} (e : exn) : M A := fun w => (Raise e, w).

Definition bind {A B} (m : M A) (k : A -> M B) : M B :=
  fun w =>
    match m w with
    | (Ret a, w') => k a w'
    | (Raise e, w') => (Raise e, w')
    end.

(** [try: m except cls: handler]. Only an exception of class [cls] is
    handled; the effects of [m] up to the exception stay. *)
Definition try_except {A} (m : M A) (cls : exn) (handler : M A) : M A :=
  fun w =>
    match m w with
    | (Ret a, w') => (Ret a, w')
    | (Raise e, w') => if decide (e = cls) then handler w' else (Raise e, w')
    end.

(** The world after one more printed line, and the world with the tab
    [t] stored under the title [title]. *)
Definition printed (line : string) (w : world) : world :=
  {| sheets := sheets w; stdout := stdout w ++ [line] |}.

Definition with_tab (title : string) (t : tab) (w : world) : world :=
  {| sheets := <[title := t]> (sheets w); stdout := stdout w |}.

Definition print (line : string) : M unit :=
  fun w => (Ret tt, printed line w).

(** [l[0]] on a Python list. *)
Definition first_item {A} (l : list A) : M A :=
  match l with
  | [] => raise IndexError
  | x :: _ => ret x
  end.

End Py.

Import Py.

Declare Scope py_scope.
Delimit Scope py_scope with py.
Notation "x <- m ;; k" := (bind m (fun x => k))
  (at level 100, m at next level, right associativity) : py_scope.
Notation "m ;;; k" := (bind m (fun _ => k))
  (at level 100, right associativity) : py_scope.
Local Open Scope py_scope.

(** ** The gspread collaborator

    [gspread] is not part of the repository. It is modelled on an
    in-memory document, one definition per call the class makes. A
    [Worksheet] object is a handle: it names a tab, and every call on it
    goes to the document. *)

Module Gspread.

Import ColumnLetters.

Definition Worksheet : Type := string.

Definition get_tab (ws : Worksheet) : M tab :=
  fun w =>
    match sheets w !! ws with
    | Some t => (Ret t, w)
    | None => (Raise APIError, w)
    end.

Definition put_tab (ws : Worksheet) (t : tab) : M unit :=
  fun w => (Ret tt, with_tab ws t w).

Section Lookup.

(** The class of the exception [Spreadsheet.worksheet] raises for a title
    the document does not have. *)
Variable lookup_error : exn.

(** [Spreadsheet.worksheet(title)]. *)
Definition worksheet (title : string) : M Worksheet :=
  fun w =>
    match sheets w !! title with
    | Some _ => (Ret title, w)
    | None => (Raise lookup_error, w)
    end.

End Lookup.

(** [Spreadsheet.add_worksheet(title, rows, cols)]: a new blank tab of the
    given size; the service refuses a title that is taken. *)
Definition add_worksheet (title : string) (rows cols : nat) : M Worksheet :=
  fun w =>
    match sheets w !! title with
    | Some _ => (Raise APIError, w)
    | None => (Ret title, with_tab title (mkTab rows cols []) w)
    end.

(** [rightpad] and [fill_gaps] of [gspread.utils]: every row is extended
    with empty strings to the longest row. *)
Definition rightpad {A} (blank : A) (n : nat) (row : list A) : list A :=
  row ++ replicate (n - length row) blank.

Definition max_cols (L : list (list string)) : nat :=
  max_list (length <$> L).

Definition fill_gaps (L : list (list string)) : list (list string) :=
  rightpad ""%string (max_cols L) <$> L.

(** [Worksheet.get_all_values()]. *)
Definition get_all_values (ws : Worksheet) : M (list (list string)) :=
  t <- get_tab ws ;; ret (fill_gaps (cells t)).

(** Writing [new] over [old] from position [i] on; positions of [old]
    before [i] that do not exist yet are [blank]. *)
Definition write_at {A} (blank : A) (i : nat) (new old : list A) : list A :=
  take i (rightpad blank i old) ++ new ++ drop (i + length new) old.

(** Writing the block [values] with its top left corner at row [r] and
    column [c] (both counted from 0). *)
Definition write_block (r c : nat) (values old : list (list string))
  : list (list string) :=
  write_at [] r
    (imap (fun j row => write_at ""%string c row (default [] (old !! (r + j)%nat)))
          values)
    old.

(** The grid grows when a write reaches beyond it. *)
Definition written (t : tab) (new_cells : list (list string)) : tab :=
  {| row_count := row_count t `max` length new_cells;
     col_count := col_count t `max` max_cols new_cells;
     cells := new_cells |}.

(** [a1_to_rowcol] of [gspread.utils]: letters, then a number without a
    leading zero; what follows the number is not looked at. *)
Definition is_digit (c : ascii) : bool :=
  (ord "0" <=? ord c) && (ord c <=? ord "9").

Definition upper (c : ascii) : ascii :=
  if (ord "a" <=? ord c) && (ord c <=? ord "z")
  then ascii_of_N (N_of_ascii c - 32)
  else c.

Fixpoint span {A} (p : A -> bool) (l : list A) : list A * list A :=
  match l with
  | [] => ([], [])
  | x :: r =>
      if p x then let '(yes, rest) := span p r in (x :: yes, rest)
      else ([], l)
  end.

Definition int_of_digits (ds : list ascii) : Z :=
  fold_left (fun n d => n * 10 + (ord d - ord "0")) ds 0.

Definition a1_to_rowcol (label : string) : M (nat * nat) :=
  let '(letters, rest) := span is_alpha (list_ascii_of_string label) in
  let '(digits, _) := span is_digit rest in
  match letters, digits with
  | _ :: _, d :: _ =>
      if ord d =? ord "0" then raise IncorrectCellLabel
      else ret (Z.to_nat (int_of_digits digits),
                Z.to_nat (fold_left step (upper <$> letters) 0))
  | _, _ => raise IncorrectCellLabel
  end.

(** [Worksheet.update(range_name=..., values=...)] for a range named by
    its top left cell. *)
Definition update (ws : Worksheet) (range_name : string)
    (values : list (list string)) : M unit :=
  t <- get_tab ws ;;
  rc <- a1_to_rowcol range_name ;;
  put_tab ws
    (written t (write_block (fst rc - 1) (snd rc - 1) values (cells t))).

(** [Worksheet.append_rows(values)]: the rows go below the last row. *)
Definition append_rows (ws : Worksheet) (values : list (list string)) : M unit :=
  t <- get_tab ws ;;
  put_tab ws (written t (cells t ++ values)).

(** [Worksheet.col_values(col)]: the column from the top down. *)
Definition col_values (ws : Worksheet) (col : Z) : M (list string) :=
  t <- get_tab ws ;;
  if col <? 1 then raise IncorrectCellLabel
  else ret ((fun row => nth (Z.to_nat (col - 1)) row ""%string)
              <$> fill_gaps (cells t)).

(** [Worksheet.acell(label).value]; [None] for a cell that holds nothing. *)
Definition acell_value (ws : Worksheet) (label : string) : M (option string) :=
  t <- get_tab ws ;;
  rc <- a1_to_rowcol label ;;
  ret (row ← cells t !! (fst rc - 1)%nat; row !! (snd rc - 1)%nat).

End Gspread.

(** ** The pandas collaborator *)

Module Pandas.

(** A [DataFrame] of strings: [df.columns.values.tolist()] and
    [df.values.tolist()]. *)
Record DataFrame : Type := mkDataFrame {
  columns : list string;
  values : list (list string)
}.

(** Every row of a [DataFrame] has one cell per column. *)
Definition rectangular (df : DataFrame) : bool :=
  forallb (fun row => (length row =? length (columns df))%nat) (values df).

(** [DataFrame(data, columns=columns)] on a list of rows: the rows must be
    as wide as the list of column names. *)
Definition DataFrame_new (data : list (list string)) (cols : list string)
  : M DataFrame :=
  if rectangular (mkDataFrame cols data) then ret (mkDataFrame cols data)
  else raise ValueError.

End Pandas.

(** ** The methods of [GsToDfConverter] *)

Module Converter.

Import ColumnLetters Gspread Pandas.

(** [self.get_col_number(col_letter)] as a call: it has no [raise] and
    calls nothing that raises. *)
Definition call_get_col_number (col_letter : string) : M Z :=
  ret (get_col_number col_letter).

Section Methods.

(** What gspread raises when [self.sheet.worksheet] does not find the
    title; see [Gspread.worksheet]. *)
Variable lookup_error : exn.

(** [get_focus_tab]: the lookup under [try], [SpreadsheetNotFound]
    handled by printing a notice and returning [None]. *)
Definition get_focus_tab (worksheet_name : string) : M (option Worksheet) :=
  try_except
    (focus_tab <- worksheet lookup_error worksheet_name ;;
     ret (Some focus_tab))
    SpreadsheetNotFound
    (print ("There is no " ++ worksheet_name
            ++ " worksheet in the Google Sheets")%string ;;;
     ret None).

(** [upload]: look the tab up, creating it with one row and
    [len(df.columns)] columns in the handler; then write everything from
    [A1] if [get_all_values() == []], and append the rows otherwise. *)
Definition upload (df : DataFrame) (worksheet_name : string) : M unit :=
  focus_tab <-
    try_except
      (worksheet lookup_error worksheet_name)
      SpreadsheetNotFound
      (add_worksheet worksheet_name 1 (length (columns df)) ;;;
       worksheet lookup_error worksheet_name) ;;
  all_values <- get_all_values focus_tab ;;
  if decide (all_values = [])
  then update focus_tab "A1" (columns df :: values df)
  else append_rows focus_tab (values df).

(** [get_sheet_as_df]: [DataFrame(sheet_data[1:], columns=sheet_data[0])]
    for a tab that was found, [None] otherwise. The slice is evaluated
    before the index, and neither can change the other's result. *)
Definition get_sheet_as_df (worksheet_name : string) : M (option DataFrame) :=
  focus_tab <- get_focus_tab worksheet_name ;;
  match focus_tab with
  | Some focus_tab =>
      sheet_data <- get_all_values focus_tab ;;
      let data := drop 1 sheet_data in
      cols <- first_item sheet_data ;;
      df <- DataFrame_new data cols ;;
      ret (Some df)
  | None => ret None
  end.

(** [get_col_values_as_list]: the column number is computed before the
    test on [focus_tab]. *)
Definition get_col_values_as_list (worksheet_name col_letter : string)
  : M (option (list string)) :=
  focus_tab <- get_focus_tab worksheet_name ;;
  col_number <- call_get_col_number col_letter ;;
  match focus_tab with
  | Some focus_tab =>
      column <- col_values focus_tab col_number ;;
      ret (Some column)
  | None => ret None
  end.

(** [get_cell_value]; the outer [option] is the method's [None] for a
    missing tab, the inner one the value of an empty cell. *)
Definition get_cell_value (worksheet_name cell : string)
  : M (option (option string)) :=
  focus_tab <- get_focus_tab worksheet_name ;;
  match focus_tab with
  | Some focus_tab =>
      value <- acell_value focus_tab cell ;;
      ret (Some value)
  | None => ret None
  end.



End Methods.

(** gspread's [Spreadsheet.worksheet] raises [WorksheetNotFound(title)]. *)
Definition gspread_lookup_error : exn := WorksheetNotFound.

End Converter.

(** ** Documents and tables of the scenarios *)

Module Scenario.

Import Pandas.

(** A document with the single tab [t]. *)
Definition one_tab (title : string) (t : tab) : world :=
  mkWorld {[ title := t ]} [].

(** A tab as [add_worksheet] leaves it, and a tab holding rows. *)
Definition blank_tab : tab := mkTab 1 1 [].

Definition tab_of (rows : list (list string)) : tab :=
  mkTab (length rows) (Gspread.max_cols rows) rows.

(** Header [X] with the data rows [1] and [2]. *)
Definition table_x : DataFrame :=
  mkDataFrame ["X"%string] [["1"%string]; ["2"%string]].

(** Header [X] with the data row [2]. *)
Definition table_x2 : DataFrame :=
  mkDataFrame ["X"%string] [["2"%string]].

(** Header [Name], [Age] with the rows of Ann and Bo. *)
Definition table_people : DataFrame :=
  mkDataFrame ["Name"%string; "Age"%string]
    [["Ann"%string; "30"%string]; ["Bo"%string; "25"%string]].

(** A fresh document: the one blank tab [Sheet1]. *)
Definition fresh_doc : world := one_tab "Sheet1" blank_tab.

End Scenario.

(** ** Letter case *)

Module Casing.

Import ColumnLetters.

(** The letters [a]..[z], the labels made of them, and Python's
    [str.upper] on a label. *)
Definition is_lower (c : ascii) : bool :=
  (ord "a" <=? ord c) && (ord c <=? ord "z").

Definition lower_label (s : string) : bool :=
  match list_ascii_of_string s with
  | [] => false
  | l => forallb is_lower l
  end.

Definition upper_label (s : string) : string :=
  string_of_list_ascii (Gspread.upper <$> list_ascii_of_string s).

End Casing.

(** * Properties *)

(** ** [get_col_number] *)

Module ColumnLettersFacts.

Import ColumnLetters Converter.

Lemma step_letter_value (result : Z) (c : ascii) :
  step result c = result * 26 + letter_value c.
Proof. unfold step, letter_value. change (ord "A") with 65. lia. Qed.

(** The loop started from any running total. *)
Lemma fold_step_from (l : list ascii) (acc : Z) :
  fold_left step l acc
  = acc * 26 ^ Z.of_nat (length l) + fold_left step l 0.
Proof.
  revert acc. induction l as [|c l IH]; intros acc.
  - simpl. lia.
  - cbn [fold_left length]. rewrite (IH (step acc c)), (IH (step 0 c)).
    rewrite Nat2Z.inj_succ, Z.pow_succ_r by lia.
    rewrite !step_letter_value. ring.
Qed.

(** The loop computes the positional value, whatever the characters. *)
Lemma fold_step_positional (l : list ascii) :
  fold_left step l 0 = bijective_base26 l.
Proof.
  induction l as [|c l IH]; [reflexivity|].
  cbn [fold_left bijective_base26].
  rewrite fold_step_from, IH, step_letter_value. ring.
Qed.

Lemma get_col_number_positional (s : string) :
  get_col_number s = column_index s.
Proof. apply fold_step_positional. Qed.

Lemma list_ascii_of_string_app (s t : string) :
  list_ascii_of_string (s ++ t)
  = (list_ascii_of_string s ++ list_ascii_of_string t)%list.
Proof. induction s as [|c s IH]; simpl; [reflexivity | now rewrite IH]. Qed.

(** Appending one character is one more iteration. *)
Lemma get_col_number_snoc (s : string) (c : ascii) :
  get_col_number (s ++ String c "") = get_col_number s * 26 + letter_value c.
Proof.
  unfold get_col_number. rewrite list_ascii_of_string_app.
  rewrite fold_left_app. simpl. apply step_letter_value.
Qed.

Lemma is_upper_value (c : ascii) :
  is_upper c = true -> 1 <= letter_value c <= 26.
Proof.
  unfold is_upper, letter_value. change (ord "A") with 65.
  change (ord "Z") with 90. lia.
Qed.

Lemma pow26_pos (n : nat) : 0 < 26 ^ Z.of_nat n.
Proof. apply Z.pow_pos_nonneg; lia. Qed.

(** Labels of [n] letters lie between [A..A] and [Z..Z]. *)
Lemma upper_bounds (l : list ascii) :
  forallb is_upper l = true ->
  26 ^ Z.of_nat (length l) - 1 <= 25 * bijective_base26 l
  /\ 25 * bijective_base26 l <= 26 * (26 ^ Z.of_nat (length l) - 1).
Proof.
  induction l as [|c l IH]; intros H.
  - simpl. lia.
  - cbn [forallb] in H. apply andb_prop in H as [Hc Hl].
    specialize (IH Hl). apply is_upper_value in Hc.
    cbn [bijective_base26 length].
    rewrite Nat2Z.inj_succ, Z.pow_succ_r by lia.
    pose proof (pow26_pos (length l)). nia.
Qed.

Lemma valid_col_letter_spec (s : string) :
  valid_col_letter s = true ->
  list_ascii_of_string s <> [] /\ forallb is_upper (list_ascii_of_string s) = true.
Proof.
  unfold valid_col_letter. destruct (list_ascii_of_string s); [discriminate|].
  intros H. split; [discriminate | exact H].
Qed.

Lemma valid_col_letter_positive (s : string) :
  valid_col_letter s = true -> 1 <= get_col_number s.
Proof.
  intros H. apply valid_col_letter_spec in H as [Hne Hup].
  rewrite get_col_number_positional. unfold column_index.
  destruct (upper_bounds _ Hup) as [Hlo _].
  destruct (list_ascii_of_string s) as [|c l]; [congruence|].
  cbn [length] in Hlo. rewrite Nat2Z.inj_succ, Z.pow_succ_r in Hlo by lia.
  pose proof (pow26_pos (length l)). lia.
Qed.

(** Among labels of one length the value follows the lexicographic order. *)
Lemma lex_lt_value (s : list ascii) : forall t : list ascii,
  length s = length t ->
  forallb is_upper s = true -> forallb is_upper t = true ->
  lex_lt s t = true ->
  bijective_base26 s < bijective_base26 t.
Proof.
  induction s as [|c s IH]; intros [|d t] Hlen Hs Ht Hlt;
    try discriminate.
  cbn [length] in Hlen. injection Hlen as Hlen.
  cbn [forallb] in Hs, Ht.
  apply andb_prop in Hs as [Hc Hs]. apply andb_prop in Ht as [Hd Ht].
  cbn [lex_lt] in Hlt. cbn [bijective_base26]. rewrite <- Hlen.
  pose proof (pow26_pos (length s)) as Hpow.
  apply orb_prop in Hlt as [Hlt | Hlt].
  - assert (letter_value c + 1 <= letter_value d) as Hcd
      by (unfold letter_value; lia).
    destruct (upper_bounds s Hs) as [_ Hhi].
    destruct (upper_bounds t Ht) as [Hlo _]. rewrite <- Hlen in Hlo.
    nia.
  - apply andb_prop in Hlt as [Heq Hlt].
    assert (letter_value c = letter_value d) as ->
      by (unfold letter_value; lia).
    specialize (IH t Hlen Hs Ht Hlt). lia.
Qed.

(** A shorter label has the smaller value. *)
Lemma shorter_value (s t : list ascii) :
  (length s < length t)%nat ->
  forallb is_upper s = true -> forallb is_upper t = true ->
  bijective_base26 s < bijective_base26 t.
Proof.
  intros Hlen Hs Ht.
  destruct (upper_bounds s Hs) as [_ Hhi].
  destruct (upper_bounds t Ht) as [Hlo _].
  assert (26 ^ Z.of_nat (S (length s)) <= 26 ^ Z.of_nat (length t)) as Hpow
    by (apply Z.pow_le_mono_r; lia).
  rewrite Nat2Z.inj_succ, Z.pow_succ_r in Hpow by lia.
  lia.
Qed.

(** C1. For a non-empty string of letters [A]..[Z], [get_col_number]
    returns the bijective base-26 column index: the positional value
    with digits [1..26], at least 1, reached by multiplying the running
    total by 26 and adding the letter's value for each further letter;
    and [A], [Z], [AA], [AZ], [BA] map to 1, 26, 27, 52, 53. *)
Theorem get_col_number_bijective_base26 (s : string)
    (Hs : valid_col_letter s = true) :
  get_col_number s = column_index s
  /\ 1 <= get_col_number s
  /\ (forall c : ascii, is_upper c = true ->
        1 <= letter_value c <= 26
        /\ get_col_number (s ++ String c "")
           = get_col_number s * 26 + letter_value c)
  /\ get_col_number "A" = 1
  /\ get_col_number "Z" = 26
  /\ get_col_number "AA" = 27
  /\ get_col_number "AZ" = 52
  /\ get_col_number "BA" = 53.
Proof.
  split; [apply get_col_number_positional|].
  split; [now apply valid_col_letter_positive|].
  split.
  - intros c Hc. split; [now apply is_upper_value | apply get_col_number_snoc].
  - repeat split; reflexivity.
Qed.

Lemma get_col_number_bijective_base26_witness :
  valid_col_letter "BA" = true
  /\ get_col_number "BA" = column_index "BA"
  /\ 1 <= get_col_number "BA".
Proof.
  split; [reflexivity|].
  pose proof (get_col_number_bijective_base26 "BA" eq_refl) as H.
  split; [apply H | apply H].
Defined.

(** C7. [get_col_number] is strictly increasing along spreadsheet column
    order: if the label [s] comes before the label [t] (shorter first,
    lexicographic within one length), then its number is smaller. *)
Theorem get_col_number_strictly_monotone (s t : string)
    (Hs : valid_col_letter s = true) (Ht : valid_col_letter t = true)
    (Hlt : column_order_lt s t = true) :
  get_col_number s < get_col_number t.
Proof.
  apply valid_col_letter_spec in Hs as [_ Hs].
  apply valid_col_letter_spec in Ht as [_ Ht].
  rewrite !get_col_number_positional. unfold column_index.
  unfold column_order_lt in Hlt. cbv zeta in Hlt.
  apply orb_prop in Hlt as [Hlt | Hlt].
  - apply shorter_value; [|assumption..]. apply Nat.ltb_lt, Hlt.
  - apply andb_prop in Hlt as [Hlen Hlex].
    apply lex_lt_value; [|assumption..]. apply Nat.eqb_eq, Hlen.
Qed.

Lemma get_col_number_strictly_monotone_witness :
  column_order_lt "Z" "AA" = true
  /\ get_col_number "Z" < get_col_number "AA".
Proof.
  split; [reflexivity|].
  apply (get_col_number_strictly_monotone "Z" "AA"); reflexivity.
Defined.

(** C10. [get_col_number] returns an integer for every string and never
    raises: 0 for the empty string, and for any further character, a
    letter or not, one more unvalidated multiply-add with the value
    [ord(char) - 64]; so ["a"], ["A1"] and ["1"] give 33, 11 and -15. *)
Theorem get_col_number_total_unvalidated :
  (forall (s : string) (w : world),
      call_get_col_number s w = (Ret (get_col_number s), w))
  /\ get_col_number "" = 0
  /\ (forall (s : string) (c : ascii),
        get_col_number (s ++ String c "")
        = get_col_number s * 26 + (ord c - 64))
  /\ get_col_number "a" = 33
  /\ get_col_number "A1" = 11
  /\ get_col_number "1" = -15.
Proof.
  split; [reflexivity|]. split; [reflexivity|]. split.
  - intros s c. apply get_col_number_snoc.
  - repeat split; reflexivity.
Qed.

(** C6, as the specification states it, fails at the empty string: the
    label is malformed, and the call returns 0 instead of raising. *)
Lemma get_col_number_empty_not_rejected :
  malformed "" = true
  /\ (forall w : world, call_get_col_number "" w = (Ret 0, w))
  /\ ~ (exists (e : exn) (w : world),
          fst (call_get_col_number "" w) = Raise e).
Proof.
  split; [reflexivity|]. split; [reflexivity|].
  intros (e & w & H). discriminate H.
Qed.

(** C6, amended. For a malformed label (empty, or with a character that
    is not a letter) [get_col_number] does not fail: it returns the
    positional value of the characters taken with [ord(char) - 64] as
    digits and leaves the document alone; that value is 0 for the empty
    string. *)
Theorem get_col_number_malformed_returns (s : string)
    (Hs : malformed s = true) :
  (forall w : world, call_get_col_number s w = (Ret (column_index s), w))
  /\ (s = ""%string -> get_col_number s = 0).
Proof.
  split.
  - intros w. unfold call_get_col_number, ret.
    now rewrite get_col_number_positional.
  - intros ->. reflexivity.
Qed.

Lemma get_col_number_malformed_returns_witness :
  malformed "A1" = true
  /\ forall w : world, call_get_col_number "A1" w = (Ret 11, w).
Proof.
  split; [reflexivity|].
  exact (proj1 (get_col_number_malformed_returns "A1" eq_refl)).
Defined.

End ColumnLettersFacts.

(** ** The collaborators *)

Module GspreadFacts.

Import Gspread.

Lemma worksheet_found (e : exn) (title : string) (w : world) (t : tab) :
  sheets w !! title = Some t -> worksheet e title w = (Ret title, w).
Proof. intros H. unfold worksheet. now rewrite H. Qed.

Lemma worksheet_missing (e : exn) (title : string) (w : world) :
  sheets w !! title = None -> worksheet e title w = (Raise e, w).
Proof. intros H. unfold worksheet. now rewrite H. Qed.

Lemma get_tab_found (ws : Worksheet) (w : world) (t : tab) :
  sheets w !! ws = Some t -> get_tab ws w = (Ret t, w).
Proof. intros H. unfold get_tab. now rewrite H. Qed.

Lemma get_all_values_found (ws : Worksheet) (w : world) (t : tab) :
  sheets w !! ws = Some t ->
  get_all_values ws w = (Ret (fill_gaps (cells t)), w).
Proof.
  intros H. unfold get_all_values, bind. now rewrite (get_tab_found _ _ _ H).
Qed.

(** [get_all_values() == []] exactly when the tab holds no row. *)
Lemma fill_gaps_nil (L : list (list string)) : fill_gaps L = [] <-> L = [].
Proof.
  unfold fill_gaps. split.
  - intros H. now apply fmap_nil_inv in H.
  - now intros ->.
Qed.

Lemma rightpad_full {A} (blank : A) (n : nat) (row : list A) :
  (n <= length row)%nat -> rightpad blank n row = row.
Proof.
  intros H. unfold rightpad.
  replace (n - length row)%nat with 0%nat by lia. apply app_nil_r.
Qed.

Lemma max_cols_cons (row : list string) (L : list (list string)) :
  max_cols (row :: L) = (length row `max` max_cols L)%nat.
Proof. reflexivity. Qed.

Lemma max_cols_uniform (n : nat) (L : list (list string)) :
  Forall (fun row => length row = n) L -> (max_cols L <= n)%nat.
Proof.
  induction 1 as [|row L Hrow _ IH]; [unfold max_cols; simpl; lia|].
  rewrite max_cols_cons. lia.
Qed.

(** On rows of one width [fill_gaps] changes nothing. *)
Lemma fill_gaps_uniform (n : nat) (L : list (list string)) :
  Forall (fun row => length row = n) L -> fill_gaps L = L.
Proof.
  intros H. pose proof (max_cols_uniform n L H) as Hmax.
  unfold fill_gaps. revert Hmax. generalize (max_cols L) as m. intros m Hm.
  induction H as [|row L Hrow _ IH]; [reflexivity|].
  cbn [fmap list_fmap]. f_equal; [apply rightpad_full; lia | exact IH].
Qed.

Lemma write_at_blank {A} (blank : A) (new : list A) :
  write_at blank 0 new [] = new.
Proof. unfold write_at. simpl. rewrite drop_nil. apply app_nil_r. Qed.

(** A block written at the top left corner of a blank tab is the tab's
    whole content. *)
Lemma write_block_blank (values : list (list string)) :
  write_block 0 0 values [] = values.
Proof.
  unfold write_block. rewrite write_at_blank.
  transitivity (imap (const id) values).
  - apply imap_ext. intros j row _. simpl. apply write_at_blank.
  - rewrite imap_const. apply list_fmap_id.
Qed.

Lemma a1_to_rowcol_A1 : a1_to_rowcol "A1" = ret (1%nat, 1%nat).
Proof. reflexivity. Qed.

End GspreadFacts.

(** ** The methods *)

Module ConverterFacts.

Import ColumnLetters Gspread Pandas Converter GspreadFacts.

Section Generic.

Variable lookup_error : exn.

Lemma get_focus_tab_found (name : string) (w : world) (t : tab) :
  sheets w !! name = Some t ->
  get_focus_tab lookup_error name w = (Ret (Some name), w).
Proof.
  intros H. unfold get_focus_tab, try_except, bind.
  now rewrite (worksheet_found _ _ _ _ H).
Qed.

(** For a missing tab the handler of [get_focus_tab] runs exactly when
    the lookup raises the class it names. *)
Lemma get_focus_tab_missing (name : string) (w : world) :
  sheets w !! name = None ->
  get_focus_tab lookup_error name w
  = if decide (lookup_error = SpreadsheetNotFound)
    then (Ret None,
          printed ("There is no " ++ name
                   ++ " worksheet in the Google Sheets")%string w)
    else (Raise lookup_error, w).
Proof.
  intros H. unfold get_focus_tab, try_except, bind.
  rewrite (worksheet_missing _ _ _ H). now case_decide.
Qed.

Lemma update_A1_found (ws : Worksheet) (vals : list (list string))
    (w : world) (t : tab) :
  sheets w !! ws = Some t ->
  update ws "A1" vals w
  = (Ret tt, with_tab ws (written t (write_block 0 0 vals (cells t))) w).
Proof.
  intros H. unfold update, bind. rewrite (get_tab_found _ _ _ H).
  rewrite a1_to_rowcol_A1. reflexivity.
Qed.

Lemma append_rows_found (ws : Worksheet) (vals : list (list string))
    (w : world) (t : tab) :
  sheets w !! ws = Some t ->
  append_rows ws vals w = (Ret tt, with_tab ws (written t (cells t ++ vals)) w).
Proof.
  intros H. unfold append_rows, bind. now rewrite (get_tab_found _ _ _ H).
Qed.

(** [upload] on a tab that exists: no creation, then the test on
    [get_all_values()]. *)
Lemma upload_found (df : DataFrame) (name : string) (w : world) (t : tab) :
  sheets w !! name = Some t ->
  upload lookup_error df name w
  = if decide (fill_gaps (cells t) = [])
    then update name "A1" (columns df :: values df) w
    else append_rows name (values df) w.
Proof.
  intros H. unfold upload, try_except, bind.
  rewrite (worksheet_found _ _ _ _ H), (get_all_values_found _ _ _ H).
  now case_decide.
Qed.


(** C3. [upload] into a tab whose value grid has rows appends the data
    rows of the table, and only those, in their order and with their
    cells as given, whatever the tab's header is; the rows the tab had,
    its header row among them, stay as they were, and the number of rows
    grows by the number of data rows. *)
Theorem upload_into_populated_tab (df : DataFrame) (name : string)
    (w : world) (t : tab)
    (Hfound : sheets w !! name = Some t) (Hrows : cells t <> []) :
  exists t' : tab,
    upload lookup_error df name w = (Ret tt, with_tab name t' w)
    /\ cells t' = cells t ++ values df
    /\ take (length (cells t)) (cells t') = cells t
    /\ drop (length (cells t)) (cells t') = values df
    /\ cells t' !! 0%nat = cells t !! 0%nat
    /\ length (cells t') = (length (cells t) + length (values df))%nat.
Proof.
  exists (written t (cells t ++ values df)). split.
  - rewrite (upload_found _ _ _ _ Hfound).
    case_decide as Hfill;
      [apply (proj1 (fill_gaps_nil _)) in Hfill; congruence|].
    apply (append_rows_found _ _ _ _ Hfound).
  - cbn [written cells]. split; [reflexivity|].
    split; [apply take_app_length|]. split; [apply drop_app_length|].
    split; [|apply length_app].
    destruct (cells t); [congruence | reflexivity].
Qed.


(** *** When the lookup raises the class the handlers name *)

Hypothesis lookup_caught : lookup_error = SpreadsheetNotFound.

Lemma get_focus_tab_missing_caught (name : string) (w : world) :
  sheets w !! name = None ->
  get_focus_tab lookup_error name w
  = (Ret None,
     printed ("There is no " ++ name
              ++ " worksheet in the Google Sheets")%string w).
Proof.
  intros H. rewrite (get_focus_tab_missing _ _ H).
  case_decide; [reflexivity | contradiction].
Qed.

(** The three read methods return [None] for a missing tab. *)
Lemma reads_of_missing_tab_caught (name col_letter cell : string) (w : world) :
  sheets w !! name = None ->
  let w' := printed ("There is no " ++ name
                     ++ " worksheet in the Google Sheets")%string w in
  get_sheet_as_df lookup_error name w = (Ret None, w')
  /\ get_col_values_as_list lookup_error name col_letter w = (Ret None, w')
  /\ get_cell_value lookup_error name cell w = (Ret None, w').
Proof.
  intros H w'.
  unfold get_sheet_as_df, get_col_values_as_list, get_cell_value, bind.
  rewrite (get_focus_tab_missing_caught _ _ H). repeat split; reflexivity.
Qed.

Lemma with_tab_twice (title : string) (t1 t2 : tab) (w : world) :
  with_tab title t2 (with_tab title t1 w) = with_tab title t2 w.
Proof. unfold with_tab. simpl. now rewrite insert_insert_eq. Qed.

(** [upload] to a missing title creates the tab with one row and as many
    columns as the table, and then writes header and rows into it. *)
Lemma upload_creates_tab_caught (df : DataFrame) (name : string) (w : world) :
  sheets w !! name = None ->
  exists t' : tab,
    upload lookup_error df name w = (Ret tt, with_tab name t' w)
    /\ cells t' = columns df :: values df
    /\ (length (columns df) <= col_count t')%nat.
Proof.
  intros H.
  set (created := mkTab 1 (length (columns df)) []).
  assert (sheets (with_tab name created w) !! name = Some created) as Hnew
    by apply lookup_insert_eq.
  exists (written created (write_block 0 0 (columns df :: values df) [])).
  split; [|split].
  - unfold upload, try_except. unfold bind at 1.
    rewrite (worksheet_missing _ _ _ H).
    case_decide; [|contradiction].
    unfold bind at 1, add_worksheet. rewrite H. fold created.
    rewrite (worksheet_found _ _ _ _ Hnew).
    unfold bind. rewrite (get_all_values_found _ _ _ Hnew).
    cbn [cells created fill_gaps fmap list_fmap].
    case_decide; [|congruence].
    fold (bind (A := unit) (B := unit)).
    rewrite (update_A1_found _ _ _ _ Hnew). now rewrite with_tab_twice.
  - cbn [written cells]. apply write_block_blank.
  - cbn [written col_count created]. lia.
Qed.

(** Writing a table to a missing title and reading the tab back gives
    the table. *)
Lemma round_trip_caught (df : DataFrame) (name : string) (w : world) :
  rectangular df = true ->
  sheets w !! name = None ->
  exists w' : world,
    upload lookup_error df name w = (Ret tt, w')
    /\ get_sheet_as_df lookup_error name w' = (Ret (Some df), w').
Proof.
  intros Hrect H.
  destruct (upload_creates_tab_caught df name w H) as (t' & Hup & Hcells & _).
  exists (with_tab name t' w). split; [exact Hup|].
  assert (sheets (with_tab name t' w) !! name = Some t') as Hnew
    by apply lookup_insert_eq.
  unfold get_sheet_as_df. unfold bind at 1.
  rewrite (get_focus_tab_found _ _ _ Hnew).
  unfold bind at 1. rewrite (get_all_values_found _ _ _ Hnew), Hcells.
  rewrite (fill_gaps_uniform (length (columns df))).
  - cbn [first_item drop]. unfold bind, ret, DataFrame_new.
    destruct df as [cols rows]. cbn [columns values] in *.
    rewrite drop_0, Hrect. reflexivity.
  - constructor; [reflexivity|].
    unfold rectangular in Hrect. rewrite forallb_forall in Hrect.
    apply Forall_forall. intros row Hin.
    apply Nat.eqb_eq, Hrect, list_elem_of_In, Hin.
Qed.

End Generic.

Import Scenario.


(** The scenario of C3: the row [2] written into a tab holding [X], [1]
    leaves [X], [1], [2]. *)
Lemma upload_into_populated_tab_witness :
  exists t' : tab,
    upload gspread_lookup_error table_x2 "Sheet1"
      (one_tab "Sheet1" (tab_of [["X"]; ["1"]]%string))
    = (Ret tt,
       with_tab "Sheet1" t' (one_tab "Sheet1" (tab_of [["X"]; ["1"]]%string)))
    /\ cells t' = [["X"]; ["1"]; ["2"]]%string.
Proof.
  destruct (upload_into_populated_tab gspread_lookup_error table_x2
              "Sheet1" (one_tab "Sheet1" (tab_of [["X"]; ["1"]]%string))
              (tab_of [["X"]; ["1"]]%string))
    as (t' & Hrun & Hcells & _).
  - vm_compute. reflexivity.
  - discriminate.
  - exists t'. split; [exact Hrun | exact Hcells].
Defined.


(** *** With gspread's lookup *)

(** The handlers name [SpreadsheetNotFound]; the lookup of a missing
    title raises [WorksheetNotFound], which passes them. *)
Lemma get_focus_tab_missing_gspread (name : string) (w : world) :
  sheets w !! name = None ->
  get_focus_tab gspread_lookup_error name w = (Raise WorksheetNotFound, w).
Proof. intros H. now rewrite (get_focus_tab_missing _ _ _ H). Qed.

Lemma reads_of_missing_tab_gspread (name col_letter cell : string) (w : world) :
  sheets w !! name = None ->
  get_sheet_as_df gspread_lookup_error name w = (Raise WorksheetNotFound, w)
  /\ get_col_values_as_list gspread_lookup_error name col_letter w
     = (Raise WorksheetNotFound, w)
  /\ get_cell_value gspread_lookup_error name cell w
     = (Raise WorksheetNotFound, w).
Proof.
  intros H.
  unfold get_sheet_as_df, get_col_values_as_list, get_cell_value, bind.
  rewrite (get_focus_tab_missing_gspread _ _ H). repeat split; reflexivity.
Qed.

Lemma upload_missing_tab_gspread (df : DataFrame) (name : string) (w : world) :
  sheets w !! name = None ->
  upload gspread_lookup_error df name w = (Raise WorksheetNotFound, w).
Proof.
  intros H. unfold upload, try_except. unfold bind at 1.
  now rewrite (worksheet_missing _ _ _ H).
Qed.

Lemma fresh_doc_has_no_people : sheets fresh_doc !! "People"%string = None.
Proof. vm_compute. reflexivity. Qed.

(** C5 (the code differs). On a document whose only tab is [Sheet1], the
    specification has [get_sheet_as_df], [get_col_values_as_list] and
    [get_cell_value] return [None] for the tab [People]; each of them
    raises [WorksheetNotFound], and nothing is printed. *)
Theorem reads_of_missing_tab_raise :
  sheets fresh_doc !! "People"%string = None
  /\ get_sheet_as_df gspread_lookup_error "People" fresh_doc
     = (Raise WorksheetNotFound, fresh_doc)
  /\ get_col_values_as_list gspread_lookup_error "People" "A" fresh_doc
     = (Raise WorksheetNotFound, fresh_doc)
  /\ get_cell_value gspread_lookup_error "People" "A1" fresh_doc
     = (Raise WorksheetNotFound, fresh_doc).
Proof.
  split; [apply fresh_doc_has_no_people|].
  apply reads_of_missing_tab_gspread, fresh_doc_has_no_people.
Qed.

(** C4 (the code differs). On a document whose only tab is [Sheet1], the
    specification has [upload] to [People] create that tab and write
    into it; [upload] raises [WorksheetNotFound] and the document is as
    before, without a tab [People]. *)
Theorem upload_to_missing_tab_raises :
  upload gspread_lookup_error table_x "People" fresh_doc
  = (Raise WorksheetNotFound, fresh_doc)
  /\ sheets fresh_doc !! "People"%string = None.
Proof.
  split; [|apply fresh_doc_has_no_people].
  apply upload_missing_tab_gspread, fresh_doc_has_no_people.
Qed.

(** C8 (the code differs). Writing the table of Ann and Bo to the
    missing tab [People] and reading it back: the specification has the
    table come back; [upload] raises [WorksheetNotFound], nothing is
    written, and the read raises as well. *)
Theorem round_trip_missing_tab_raises :
  rectangular table_people = true
  /\ upload gspread_lookup_error table_people "People" fresh_doc
     = (Raise WorksheetNotFound, fresh_doc)
  /\ get_sheet_as_df gspread_lookup_error "People" fresh_doc
     = (Raise WorksheetNotFound, fresh_doc).
Proof.
  split; [reflexivity|]. split.
  - apply upload_missing_tab_gspread, fresh_doc_has_no_people.
  - apply reads_of_missing_tab_gspread;
      [exact ""%string.. | apply fresh_doc_has_no_people].
Qed.

End ConverterFacts.

(** ** More on [get_col_number] *)

Module ColumnLettersMore.

Import ColumnLetters Casing ColumnLettersFacts.

Lemma ord_inj (c d : ascii) : ord c = ord d -> c = d.
Proof.
  unfold ord. intros H. apply N2Z.inj in H.
  apply (f_equal ascii_of_N) in H. now rewrite !ascii_N_embedding in H.
Qed.

(** Two labels of one length with one value are the same label. *)
Lemma same_length_same_value (s : list ascii) : forall t : list ascii,
  length s = length t ->
  forallb is_upper s = true -> forallb is_upper t = true ->
  bijective_base26 s = bijective_base26 t ->
  s = t.
Proof.
  induction s as [|c s IH]; intros [|d t] Hlen Hs Ht Hval;
    try discriminate; [reflexivity|].
  cbn [length] in Hlen. injection Hlen as Hlen.
  cbn [forallb] in Hs, Ht.
  apply andb_prop in Hs as [Hc Hs]. apply andb_prop in Ht as [Hd Ht].
  cbn [bijective_base26] in Hval. rewrite <- Hlen in Hval.
  pose proof (pow26_pos (length s)) as Hpow.
  destruct (upper_bounds s Hs) as [Hslo Hshi].
  destruct (upper_bounds t Ht) as [Htlo Hthi]. rewrite <- Hlen in Htlo, Hthi.
  assert (letter_value c = letter_value d) as Hcd.
  { destruct (Z.lt_trichotomy (letter_value c) (letter_value d))
      as [Hlt | [Heq | Hgt]]; [nia | exact Heq | nia]. }
  rewrite Hcd in Hval. f_equal.
  - apply ord_inj. unfold letter_value in Hcd. lia.
  - apply IH; [assumption.. | lia].
Qed.

Lemma same_value_same_label (s t : list ascii) :
  forallb is_upper s = true -> forallb is_upper t = true ->
  bijective_base26 s = bijective_base26 t ->
  s = t.
Proof.
  intros Hs Ht Hval.
  destruct (lt_eq_lt_dec (length s) (length t)) as [[Hlt | Heq] | Hgt].
  - pose proof (shorter_value s t Hlt Hs Ht). lia.
  - now apply same_length_same_value.
  - pose proof (shorter_value t s Hgt Ht Hs). lia.
Qed.

Lemma list_ascii_of_string_inj (s t : string) :
  list_ascii_of_string s = list_ascii_of_string t -> s = t.
Proof.
  intros H. apply (f_equal string_of_list_ascii) in H.
  now rewrite !string_of_list_ascii_of_string in H.
Qed.

(** The letter with value [r + 1]. *)
Lemma letter_of_value (r : Z) :
  0 <= r < 26 ->
  exists c : ascii, is_upper c = true /\ letter_value c = r + 1.
Proof.
  intros Hr. exists (ascii_of_N (Z.to_N (65 + r))).
  assert (ord (ascii_of_N (Z.to_N (65 + r))) = 65 + r) as Hord.
  { unfold ord. rewrite N_ascii_embedding by lia. lia. }
  unfold is_upper, letter_value. rewrite Hord.
  change (ord "A") with 65. change (ord "Z") with 90. lia.
Qed.

(** Every positive number is the value of a label. *)
Lemma label_of_value (k : nat) : forall n : Z,
  1 <= n <= Z.of_nat k ->
  exists l : list ascii,
    l <> [] /\ forallb is_upper l = true /\ fold_left step l 0 = n.
Proof.
  induction k as [|k IH]; intros n Hn; [lia|].
  pose proof (Z.div_mod (n - 1) 26 ltac:(lia)) as Hdiv.
  pose proof (Z.mod_pos_bound (n - 1) 26 ltac:(lia)) as Hmod.
  destruct (letter_of_value ((n - 1) mod 26) Hmod) as (c & Hc & Hval).
  destruct (Z.eq_dec ((n - 1) / 26) 0) as [Hq | Hq].
  - exists [c]. split; [discriminate|]. split; [simpl; now rewrite Hc|].
    simpl. rewrite step_letter_value. lia.
  - destruct (IH ((n - 1) / 26)) as (l & Hne & Hup & Hl).
    { pose proof (Z.div_pos (n - 1) 26 ltac:(lia) ltac:(lia)). lia. }
    exists (l ++ [c])%list. split; [now destruct l|]. split.
    + rewrite forallb_app, Hup. simpl. now rewrite Hc.
    + rewrite fold_left_app, Hl. simpl. rewrite step_letter_value. lia.
Qed.

(** X1. Two column labels with the same number are the same label:
    [get_col_number] is injective on non-empty strings of [A]..[Z]. *)
Theorem get_col_number_injective (s t : string)
    (Hs : valid_col_letter s = true) (Ht : valid_col_letter t = true)
    (Hnum : get_col_number s = get_col_number t) :
  s = t.
Proof.
  apply valid_col_letter_spec in Hs as [_ Hs].
  apply valid_col_letter_spec in Ht as [_ Ht].
  rewrite !get_col_number_positional in Hnum.
  apply list_ascii_of_string_inj. now apply same_value_same_label.
Qed.

Lemma get_col_number_injective_witness :
  get_col_number "AZ" = get_col_number "AZ" /\ "AZ"%string = "AZ"%string.
Proof.
  split; [reflexivity|].
  apply (get_col_number_injective "AZ" "AZ"); reflexivity.
Defined.

(** X2. Every column number from 1 on has a label: for each positive
    integer there is a non-empty string of [A]..[Z] that
    [get_col_number] maps to it. *)
Theorem get_col_number_surjective (n : Z) (Hn : 1 <= n) :
  exists s : string, valid_col_letter s = true /\ get_col_number s = n.
Proof.
  destruct (label_of_value (Z.to_nat n) n ltac:(lia)) as (l & Hne & Hup & Hl).
  exists (string_of_list_ascii l).
  unfold valid_col_letter, get_col_number.
  rewrite list_ascii_of_string_of_list_ascii.
  split; [|exact Hl]. destruct l; [congruence | exact Hup].
Qed.

Lemma get_col_number_surjective_witness :
  exists s : string, valid_col_letter s = true /\ get_col_number s = 703.
Proof. apply (get_col_number_surjective 703). lia. Defined.

(** X3. The number of a label of [n] letters lies between the number of
    [A..A] and the number of [Z..Z], that is between [(26^n - 1) / 25]
    and [26 * (26^n - 1) / 25]; so one letter gives 1..26 and two letters
    give 27..702. *)
Theorem get_col_number_range (s : string) (Hs : valid_col_letter s = true) :
  let n := Z.of_nat (String.length s) in
  26 ^ n - 1 <= 25 * get_col_number s
  /\ 25 * get_col_number s <= 26 * (26 ^ n - 1).
Proof.
  apply valid_col_letter_spec in Hs as [_ Hs].
  rewrite get_col_number_positional. unfold column_index.
  replace (String.length s) with (length (list_ascii_of_string s)).
  - apply upper_bounds, Hs.
  - clear Hs. induction s as [|c s IH]; simpl; [reflexivity | now rewrite IH].
Qed.

Lemma get_col_number_range_witness :
  26 ^ 2 - 1 <= 25 * get_col_number "ZZ"
  /\ 25 * get_col_number "ZZ" <= 26 * (26 ^ 2 - 1).
Proof. apply (get_col_number_range "ZZ"). reflexivity. Defined.

Lemma upper_of_lower (c : ascii) :
  is_lower c = true -> ord (Gspread.upper c) = ord c - 32.
Proof.
  intros H. unfold Gspread.upper. fold (is_lower c). rewrite H.
  unfold is_lower in H. change (ord "a") with 97 in H.
  unfold ord in *. pose proof (N_ascii_bounded c).
  rewrite N_ascii_embedding by lia. lia.
Qed.

Lemma lower_shift (l : list ascii) :
  forallb is_lower l = true ->
  forallb is_upper (Gspread.upper <$> l) = true
  /\ 25 * (bijective_base26 l - bijective_base26 (Gspread.upper <$> l))
     = 32 * (26 ^ Z.of_nat (length l) - 1).
Proof.
  induction l as [|c l IH]; intros H; [split; reflexivity|].
  cbn [forallb] in H. apply andb_prop in H as [Hc Hl].
  destruct (IH Hl) as [IHup IHval].
  pose proof (upper_of_lower c Hc) as Hord.
  cbn [fmap list_fmap forallb bijective_base26 length]. split.
  - fold (fmap (M := list) Gspread.upper l). rewrite IHup, andb_true_r.
    unfold is_upper. rewrite Hord. unfold is_lower in Hc.
    change (ord "a") with 97 in Hc. change (ord "z") with 122 in Hc.
    change (ord "A") with 65. change (ord "Z") with 90. lia.
  - fold (fmap (M := list) Gspread.upper l). rewrite length_fmap.
    rewrite Nat2Z.inj_succ, Z.pow_succ_r by lia.
    unfold letter_value. rewrite Hord.
    pose proof (pow26_pos (length l)). nia.
Qed.

(** X4. [get_col_number] does not fold case: a non-empty label of
    letters [a]..[z] gets a larger number than its upper-case form,
    larger by 32 for each position ([32 * (26^n - 1) / 25] for [n]
    letters), although the upper-case form is a valid label. *)
Theorem get_col_number_lower_case (s : string) (Hs : lower_label s = true) :
  valid_col_letter (upper_label s) = true
  /\ 25 * (get_col_number s - get_col_number (upper_label s))
     = 32 * (26 ^ Z.of_nat (String.length s) - 1)
  /\ get_col_number (upper_label s) < get_col_number s.
Proof.
  unfold lower_label in Hs.
  assert (list_ascii_of_string s <> []
          /\ forallb is_lower (list_ascii_of_string s) = true) as [Hne Hlow].
  { destruct (list_ascii_of_string s); [discriminate|]. now split. }
  destruct (lower_shift _ Hlow) as [Hup Hval].
  assert (length (list_ascii_of_string s) = String.length s) as Hlen.
  { clear. induction s as [|c s IH]; simpl; [reflexivity | now rewrite IH]. }
  rewrite Hlen in Hval.
  assert (get_col_number (upper_label s)
          = bijective_base26 (Gspread.upper <$> list_ascii_of_string s)) as Hu.
  { rewrite get_col_number_positional. unfold column_index, upper_label.
    now rewrite list_ascii_of_string_of_list_ascii. }
  rewrite Hu, get_col_number_positional. unfold column_index.
  split; [|split; [exact Hval|]].
  - unfold valid_col_letter, upper_label.
    rewrite list_ascii_of_string_of_list_ascii.
    destruct (list_ascii_of_string s); [congruence | exact Hup].
  - assert (26 ^ 1 <= 26 ^ Z.of_nat (String.length s)).
    { apply Z.pow_le_mono_r; [lia|]. rewrite <- Hlen.
      destruct (list_ascii_of_string s); [congruence | simpl; lia]. }
    lia.
Qed.

Lemma get_col_number_lower_case_witness :
  lower_label "a" = true
  /\ get_col_number (upper_label "a") < get_col_number "a".
Proof.
  split; [reflexivity|].
  apply (get_col_number_lower_case "a"). reflexivity.
Defined.

End ColumnLettersMore.

(** ** More on the methods *)

Module ConverterMore.

Import ColumnLetters Gspread Pandas Converter GspreadFacts ConverterFacts.

(** Case analysis on every test a run goes through. *)
Ltac run_cases :=
  repeat (cbn [fst snd sheets stdout printed with_tab];
          match goal with
          | |- context [match ?x with _ => _ end] =>
              lazymatch x with
              | context [match _ with _ => _ end] => fail
              | _ => destruct x eqn:?
              end
          end);
  cbn [fst snd sheets stdout printed with_tab].

Lemma max_cols_ge (L : list (list string)) (row : list string) :
  row ∈ L -> (length row <= max_cols L)%nat.
Proof.
  intros H. unfold max_cols. apply max_list_elem_of_le.
  apply list_elem_of_fmap. now exists row.
Qed.

Lemma rightpad_length {A} (blank : A) (n : nat) (row : list A) :
  (length row <= n)%nat -> length (rightpad blank n row) = n.
Proof.
  intros H. unfold rightpad. rewrite length_app, length_replicate. lia.
Qed.

(** [get_all_values] returns rows of one width. *)
Lemma fill_gaps_width (L : list (list string)) :
  Forall (fun row => length row = max_cols L) (fill_gaps L).
Proof.
  unfold fill_gaps. apply Forall_fmap, Forall_forall. intros row Hin.
  simpl. apply rightpad_length, max_cols_ge, Hin.
Qed.

Lemma rectangular_uniform (cols : list string) (rows : list (list string)) :
  Forall (fun row => length row = length cols) rows ->
  rectangular (mkDataFrame cols rows) = true.
Proof.
  intros H. unfold rectangular. cbn [columns values].
  apply forallb_forall. intros row Hin. apply Nat.eqb_eq.
  rewrite Forall_forall in H. apply H, list_elem_of_In, Hin.
Qed.

Section Generic.

Variable lookup_error : exn.

Lemma get_focus_tab_keeps_sheets (name : string) (w : world) :
  sheets (snd (get_focus_tab lookup_error name w)) = sheets w.
Proof.
  unfold get_focus_tab, try_except, bind, worksheet, print, ret.
  run_cases; reflexivity.
Qed.

(** X5. The read methods never change the document: whatever the tab
    name, column letter and cell, and whether they return or raise,
    [get_focus_tab], [get_sheet_as_df], [get_col_values_as_list] and
    [get_cell_value] leave every tab as it was. *)
Theorem reads_keep_document (name col_letter cell : string) (w : world) :
  sheets (snd (get_focus_tab lookup_error name w)) = sheets w
  /\ sheets (snd (get_sheet_as_df lookup_error name w)) = sheets w
  /\ sheets (snd (get_col_values_as_list lookup_error name col_letter w))
     = sheets w
  /\ sheets (snd (get_cell_value lookup_error name cell w)) = sheets w.
Proof.
  split; [apply get_focus_tab_keeps_sheets|].
  pose proof (get_focus_tab_keeps_sheets name w) as Hfocus.
  unfold get_sheet_as_df, get_col_values_as_list, get_cell_value.
  repeat split; unfold bind at 1;
    (destruct (get_focus_tab lookup_error name w) as [[[focus_tab|]|e] w'];
     cbn [snd] in Hfocus; [|exact Hfocus..]);
    unfold call_get_col_number, get_all_values, col_values, acell_value,
      a1_to_rowcol, first_item, DataFrame_new, get_tab, bind, ret, raise;
    run_cases; exact Hfocus.
Qed.

(** X6. [get_sheet_as_df] on a tab that exists and has at least one row
    always returns a table and changes nothing: the header is the first
    row and the data are the other rows of [get_all_values()], which are
    all of one width, so that the table is rectangular. *)
Theorem get_sheet_as_df_populated (name : string) (w : world) (t : tab)
    (Hfound : sheets w !! name = Some t) (Hrows : cells t <> []) :
  exists df : DataFrame,
    get_sheet_as_df lookup_error name w = (Ret (Some df), w)
    /\ columns df :: values df = fill_gaps (cells t)
    /\ rectangular df = true
    /\ length (values df) = (length (cells t) - 1)%nat.
Proof.
  pose proof (fill_gaps_width (cells t)) as Hwidth.
  assert (length (fill_gaps (cells t)) = length (cells t)) as Hlen
    by apply length_fmap.
  destruct (fill_gaps (cells t)) as [|header rows] eqn:Hfill.
  { apply (proj1 (fill_gaps_nil _)) in Hfill. contradiction. }
  apply Forall_cons in Hwidth as [Hheader Hdata].
  assert (rectangular (mkDataFrame header rows) = true) as Hrect.
  { apply rectangular_uniform. rewrite Hheader. exact Hdata. }
  exists (mkDataFrame header rows). split; [|split; [|split]].
  - unfold get_sheet_as_df. unfold bind at 1.
    rewrite (get_focus_tab_found _ _ _ _ Hfound).
    unfold bind at 1. rewrite (get_all_values_found _ _ _ Hfound), Hfill.
    cbn [first_item]. unfold bind, ret, DataFrame_new.
    change (drop 1 (header :: rows)) with rows. rewrite Hrect. reflexivity.
  - reflexivity.
  - exact Hrect.
  - cbn [values]. cbn [length] in Hlen. lia.
Qed.


Lemma upload_into_empty_run (df : DataFrame) (name : string) (w : world)
    (t : tab) :
  sheets w !! name = Some t -> cells t = [] ->
  upload lookup_error df name w
  = (Ret tt, with_tab name (written t (columns df :: values df)) w).
Proof.
  intros Hfound Hempty. rewrite (upload_found _ _ _ _ _ Hfound), Hempty.
  cbn [fill_gaps fmap list_fmap]. case_decide; [|congruence].
  rewrite (update_A1_found _ _ _ _ Hfound), Hempty, write_block_blank.
  reflexivity.
Qed.

Lemma upload_into_rows_run (df : DataFrame) (name : string) (w : world)
    (t : tab) :
  sheets w !! name = Some t -> cells t <> [] ->
  upload lookup_error df name w
  = (Ret tt, with_tab name (written t (cells t ++ values df)) w).
Proof.
  intros Hfound Hrows. rewrite (upload_found _ _ _ _ _ Hfound).
  case_decide as Hfill;
    [apply (proj1 (fill_gaps_nil _)) in Hfill; contradiction|].
  apply (append_rows_found _ _ _ _ Hfound).
Qed.

Lemma with_tab_lookup (name : string) (t : tab) (w : world) :
  sheets (with_tab name t w) !! name = Some t.
Proof. apply lookup_insert_eq. Qed.



Lemma max_cols_app (L1 L2 : list (list string)) :
  max_cols (L1 ++ L2) = (max_cols L1 `max` max_cols L2)%nat.
Proof.
  induction L1 as [|row L1 IH]; [reflexivity|].
  change ((row :: L1) ++ L2) with (row :: (L1 ++ L2)).
  rewrite !max_cols_cons, IH. lia.
Qed.

(** X9. Uploads into a tab that has rows accumulate: two uploads in a
    row leave the document exactly as one upload of a table holding the
    rows of the first followed by the rows of the second, whatever the
    headers of the three tables are. *)
Theorem uploads_accumulate (df1 df2 : DataFrame) (cols : list string)
    (name : string) (w : world) (t : tab)
    (Hfound : sheets w !! name = Some t) (Hrows : cells t <> []) :
  exists w1 : world,
    upload lookup_error df1 name w = (Ret tt, w1)
    /\ upload lookup_error df2 name w1
       = upload lookup_error (mkDataFrame cols (values df1 ++ values df2))
           name w.
Proof.
  set (t1 := written t (cells t ++ values df1)).
  exists (with_tab name t1 w).
  split; [apply (upload_into_rows_run _ _ _ _ Hfound Hrows)|].
  rewrite (upload_into_rows_run df2 name _ t1 (with_tab_lookup _ _ _))
    by (cbn [t1 written cells]; destruct (cells t); [congruence|discriminate]).
  rewrite (upload_into_rows_run _ name w t Hfound Hrows).
  rewrite with_tab_twice. f_equal. f_equal.
  unfold t1, written. cbn [cells row_count col_count values].
  unfold written. cbn [cells row_count col_count].
  rewrite <- !app_assoc. f_equal.
  - rewrite !length_app. lia.
  - rewrite !max_cols_app. lia.
Qed.

Lemma upload_missing_passes (df : DataFrame) (name : string) (w : world) :
  lookup_error <> SpreadsheetNotFound ->
  sheets w !! name = None ->
  upload lookup_error df name w = (Raise lookup_error, w).
Proof.
  intros Hcls H. unfold upload, try_except. unfold bind at 1.
  rewrite (worksheet_missing _ _ _ H). case_decide; [contradiction|].
  reflexivity.
Qed.

(** X10. Only [SpreadsheetNotFound] is handled: when the lookup of a
    missing tab raises any other exception, [upload], [get_focus_tab] and
    the three read methods raise that same exception, and neither the
    document nor the output has changed. *)
Theorem other_lookup_errors_pass (df : DataFrame)
    (name col_letter cell : string) (w : world)
    (Hcls : lookup_error <> SpreadsheetNotFound)
    (Hmissing : sheets w !! name = None) :
  upload lookup_error df name w = (Raise lookup_error, w)
  /\ get_focus_tab lookup_error name w = (Raise lookup_error, w)
  /\ get_sheet_as_df lookup_error name w = (Raise lookup_error, w)
  /\ get_col_values_as_list lookup_error name col_letter w
     = (Raise lookup_error, w)
  /\ get_cell_value lookup_error name cell w = (Raise lookup_error, w).
Proof.
  assert (get_focus_tab lookup_error name w = (Raise lookup_error, w))
    as Hfocus.
  { rewrite (get_focus_tab_missing _ _ _ Hmissing).
    case_decide; [contradiction | reflexivity]. }
  split; [now apply upload_missing_passes|]. split; [exact Hfocus|].
  unfold get_sheet_as_df, get_col_values_as_list, get_cell_value, bind.
  rewrite Hfocus. repeat split; reflexivity.
Qed.

(** X11. [upload] touches one tab only and prints nothing: whatever the
    table, the tab name and the outcome, every tab with another name and
    the output are as before. *)
Theorem upload_keeps_other_tabs (df : DataFrame) (name other : string)
    (w : world) (Hother : other <> name) :
  sheets (snd (upload lookup_error df name w)) !! other = sheets w !! other
  /\ stdout (snd (upload lookup_error df name w)) = stdout w.
Proof.
  destruct (sheets w !! name) as [t|] eqn:Hfound.
  - destruct (decide (cells t = [])) as [Hempty | Hrows].
    + rewrite (upload_into_empty_run _ _ _ _ Hfound Hempty).
      cbn [snd with_tab sheets stdout].
      split; [now apply lookup_insert_ne | reflexivity].
    + rewrite (upload_into_rows_run _ _ _ _ Hfound Hrows).
      cbn [snd with_tab sheets stdout].
      split; [now apply lookup_insert_ne | reflexivity].
  - destruct (decide (lookup_error = SpreadsheetNotFound)) as [Hcls | Hcls].
    + destruct (upload_creates_tab_caught lookup_error Hcls df name w Hfound)
        as (t' & Hrun & _).
      rewrite Hrun. cbn [snd with_tab sheets stdout].
      split; [now apply lookup_insert_ne | reflexivity].
    + rewrite (upload_missing_passes df name w Hcls Hfound).
      split; reflexivity.
Qed.


(** X13. The handler of [get_focus_tab]: when the lookup of a missing
    tab raises [SpreadsheetNotFound], [get_focus_tab] and the three read
    methods return [None], having printed the one line that names the
    tab and left the tabs alone. *)
Theorem reads_handler_returns_none (name col_letter cell : string)
    (w : world)
    (Hcls : lookup_error = SpreadsheetNotFound)
    (Hmissing : sheets w !! name = None) :
  let w' := printed ("There is no " ++ name
                     ++ " worksheet in the Google Sheets")%string w in
  get_focus_tab lookup_error name w = (Ret None, w')
  /\ get_sheet_as_df lookup_error name w = (Ret None, w')
  /\ get_col_values_as_list lookup_error name col_letter w = (Ret None, w')
  /\ get_cell_value lookup_error name cell w = (Ret None, w')
  /\ sheets w' = sheets w.
Proof.
  intros w'.
  split; [apply (get_focus_tab_missing_caught lookup_error Hcls _ _ Hmissing)|].
  destruct (reads_of_missing_tab_caught lookup_error Hcls name col_letter
              cell w Hmissing) as (Hdf & Hcol & Hcell).
  repeat split; assumption.
Qed.


(** X15. A column letter whose number is below 1 (the empty string, a
    digit) is passed on as it is: on a tab that exists
    [get_col_values_as_list] raises [IncorrectCellLabel] from
    [col_values] and returns no list. *)
Theorem get_col_values_as_list_bad_letter (name col_letter : string)
    (w : world) (t : tab)
    (Hfound : sheets w !! name = Some t)
    (Hnum : get_col_number col_letter < 1) :
  get_col_values_as_list lookup_error name col_letter w
  = (Raise IncorrectCellLabel, w).
Proof.
  unfold get_col_values_as_list. unfold bind at 1.
  rewrite (get_focus_tab_found _ _ _ _ Hfound).
  unfold call_get_col_number, col_values, bind, ret.
  rewrite (get_tab_found _ _ _ Hfound).
  apply Z.ltb_lt in Hnum. rewrite Hnum. reflexivity.
Qed.

End Generic.

Import Scenario.

Lemma get_sheet_as_df_populated_witness :
  exists df : DataFrame,
    get_sheet_as_df gspread_lookup_error "Sheet1"
      (one_tab "Sheet1" (tab_of [["X"]; ["1"]]%string))
    = (Ret (Some df), one_tab "Sheet1" (tab_of [["X"]; ["1"]]%string))
    /\ columns df :: values df = [["X"]; ["1"]]%string.
Proof.
  destruct (get_sheet_as_df_populated gspread_lookup_error "Sheet1"
              (one_tab "Sheet1" (tab_of [["X"]; ["1"]]%string))
              (tab_of [["X"]; ["1"]]%string))
    as (df & Hrun & Hcells & _).
  - vm_compute. reflexivity.
  - discriminate.
  - exists df. split; [exact Hrun | exact Hcells].
Defined.



Lemma uploads_accumulate_witness :
  exists w1 : world,
    upload gspread_lookup_error table_x "Sheet1"
      (one_tab "Sheet1" (tab_of [["X"]; ["1"]]%string)) = (Ret tt, w1)
    /\ upload gspread_lookup_error table_x2 "Sheet1" w1
       = upload gspread_lookup_error
           (mkDataFrame ["Y"%string] [["1"]; ["2"]; ["2"]]%string) "Sheet1"
           (one_tab "Sheet1" (tab_of [["X"]; ["1"]]%string)).
Proof.
  apply (uploads_accumulate gspread_lookup_error table_x table_x2
           ["Y"%string] "Sheet1"
           (one_tab "Sheet1" (tab_of [["X"]; ["1"]]%string))
           (tab_of [["X"]; ["1"]]%string)).
  - vm_compute. reflexivity.
  - discriminate.
Defined.

Lemma other_lookup_errors_pass_witness :
  upload APIError table_x "People" fresh_doc = (Raise APIError, fresh_doc)
  /\ get_focus_tab APIError "People" fresh_doc = (Raise APIError, fresh_doc).
Proof.
  destruct (other_lookup_errors_pass APIError table_x "People" "A" "A1"
              fresh_doc) as (Hup & Hfocus & _).
  - discriminate.
  - vm_compute. reflexivity.
  - split; [exact Hup | exact Hfocus].
Defined.

Lemma upload_keeps_other_tabs_witness :
  sheets (snd (upload SpreadsheetNotFound table_x "People" fresh_doc))
    !! "Sheet1"%string
  = sheets fresh_doc !! "Sheet1"%string.
Proof.
  apply (upload_keeps_other_tabs SpreadsheetNotFound table_x "People"
           "Sheet1" fresh_doc).
  discriminate.
Defined.


Lemma reads_handler_returns_none_witness :
  get_focus_tab SpreadsheetNotFound "People" fresh_doc
  = (Ret None,
     printed "There is no People worksheet in the Google Sheets" fresh_doc).
Proof.
  apply (reads_handler_returns_none SpreadsheetNotFound "People" "A" "A1"
           fresh_doc).
  - reflexivity.
  - vm_compute. reflexivity.
Defined.


Lemma get_col_values_as_list_bad_letter_witness :
  get_col_values_as_list gspread_lookup_error "Sheet1" "" fresh_doc
  = (Raise IncorrectCellLabel, fresh_doc).
Proof.
  apply (get_col_values_as_list_bad_letter gspread_lookup_error "Sheet1" ""
           fresh_doc blank_tab).
  - vm_compute. reflexivity.
  - reflexivity.
Defined.

End ConverterMore.
